(** * The LLaVA local client (src/app.py): a relay in front of the Colab server

    The program is a FastAPI application with five routes.  Three of them
    ([/v1/analyze], [/v1/embed], [/v1/cosine-sim]) validate the declared
    content type of the uploaded files, forward them with [requests.post]
    and translate the exceptions of the [requests] library into
    [HTTPException]s; [/health] probes the Colab server and [/] returns
    static metadata.

    The handlers are embedded as computations in a small monad that threads
      - the list of observable effects (lines printed, uploads read,
        outbound HTTP calls), kept when an exception is raised, and
      - the handler's local variable [response], which the
        [except requests.exceptions.HTTPError] clause reads,
    and that either returns a value or raises a Python exception.  The Colab
    server and the network are an oracle [upstream] from outbound requests to
    what [requests] does with them. *)

From Stdlib Require Import String Ascii List ZArith Bool Lia DecimalString.
Import ListNotations.

Local Open Scope list_scope.
Local Open Scope string_scope.
Local Open Scope Z_scope.

(** ** Values *)

Set Warnings "-register-all".

(** What [json.loads] produces and what a handler may return: [None], [bool],
    [int], [float] (kept as its literal), [str], [list] and [dict] (in
    insertion order).  A [float] is kept as its [repr], so the non-finite
    ones, which [json.loads] yields for [Infinity], [NaN] or [1e400], are
    [inf], [-inf] and [nan].  A [str] is kept as its UTF-8 encoding, and a
    lone surrogate, which [json.loads] yields for an escape such as
    [\ud800], as the three bytes [ED A0..BF 80..BF] that the [surrogatepass]
    error handler gives it. *)
Inductive json : Type :=
| JNull
| JBool (b : bool)
| JInt (n : Z)
| JFloat (literal : string)
| JStr (s : string)
| JList (items : list json)
| JDict (fields : list (string * json)).

(** [type(v).__name__], as it appears in the text of an [AttributeError]. *)
Definition type_name (v : json) : string :=
  match v with
  | JNull => "NoneType"
  | JBool _ => "bool"
  | JInt _ => "int"
  | JFloat _ => "float"
  | JStr _ => "str"
  | JList _ => "list"
  | JDict _ => "dict"
  end.

Fixpoint lookup (key : string) (fields : list (string * json)) : option json :=
  match fields with
  | [] => None
  | (k, v) :: rest => if String.eqb key k then Some v else lookup key rest
  end.

(** [str(n)] for an [int]. *)
Definition str_of_int (n : Z) : string := NilZero.string_of_int (Z.to_int n).

(** [math.isfinite] on the [repr] of a float. *)
Definition finite_float (literal : string) : bool :=
  negb (String.eqb literal "inf" || String.eqb literal "-inf" || String.eqb literal "nan").

(** The bytes [a b] open the encoding of a surrogate (U+D800..U+DFFF). *)
Definition is_surrogate_lead (a b : ascii) : bool :=
  (nat_of_ascii a =? 237)%nat &&
  (160 <=? nat_of_ascii b)%nat && (nat_of_ascii b <=? 191)%nat.

Definition at_surrogate (s : string) : bool :=
  match s with
  | String a (String b _) => is_surrogate_lead a b
  | _ => false
  end.

(** The str holds a surrogate: [s.encode("utf-8")] raises. *)
Fixpoint has_surrogate (s : string) : bool :=
  match s with
  | EmptyString => false
  | String _ rest => at_surrogate s || has_surrogate rest
  end.

(** A continuation byte of UTF-8: it starts no character. *)
Definition is_continuation (a : ascii) : bool :=
  (128 <=? nat_of_ascii a)%nat && (nat_of_ascii a <=? 191)%nat.

(** The first surrogate of a str: the index of the character, counted from
    [index] for the first character of [s], and the bytes from there on. *)
Fixpoint first_surrogate (index : nat) (s : string) : option (nat * string) :=
  match s with
  | EmptyString => None
  | String a rest =>
      if at_surrogate s then Some (index, s)
      else first_surrogate (if is_continuation a then index else S index) rest
  end.

(** The number of surrogates in a row at the head of [s]. *)
Fixpoint surrogate_run (s : string) : nat :=
  match s with
  | String a (String b (String _ rest)) =>
      if is_surrogate_lead a b then S (surrogate_run rest) else O
  | String a (String b EmptyString) =>
      if is_surrogate_lead a b then 1%nat else O
  | _ => O
  end.

Definition hex_digit (n : nat) : string :=
  match String.get n "0123456789abcdef" with
  | Some d => String d EmptyString
  | None => "?"
  end.

(** The escape [\udxxx] of the surrogate at the head of [s]. *)
Definition surrogate_escape (s : string) : string :=
  match s with
  | String _ (String b (String c _)) =>
      let v := ((nat_of_ascii b - 128) * 64 + (nat_of_ascii c - 128))%nat in
      "\ud" ++ hex_digit (v / 256) ++ hex_digit ((v / 16) mod 16) ++ hex_digit (v mod 16)
  | _ => "\ud???"
  end.

(** [str(e)] of the [UnicodeEncodeError] that the UTF-8 codec raises on a
    text of [skipped] characters followed by [s]: it reports the first
    surrogate, or the first run of them. *)
Definition encode_error_text (skipped : nat) (s : string) : string :=
  match first_surrogate skipped s with
  | Some (start, tail) =>
      match surrogate_run tail with
      | S (S more) =>
          "'utf-8' codec can't encode characters in position " ++
          str_of_int (Z.of_nat start) ++ "-" ++ str_of_int (Z.of_nat (start + S more)) ++
          ": surrogates not allowed"
      | _ =>
          "'utf-8' codec can't encode character '" ++ surrogate_escape tail ++
          "' in position " ++ str_of_int (Z.of_nat start) ++ ": surrogates not allowed"
      end
  | None => EmptyString
  end.

(** [json.dumps(v, ensure_ascii=False, allow_nan=False).encode("utf-8")]
    succeeds: [v] holds no non-finite float and no surrogate, in a value or
    in a key. *)
Fixpoint renderable (v : json) : bool :=
  match v with
  | JNull | JBool _ | JInt _ => true
  | JFloat literal => finite_float literal
  | JStr s => negb (has_surrogate s)
  | JList items => forallb renderable items
  | JDict fields =>
      forallb (fun kv => match kv with
                         | (k, x) => negb (has_surrogate k) && renderable x
                         end) fields
  end.

(** An optional string inside an f-string or a dict: [None] or the string. *)
Definition json_of_opt (o : option string) : json :=
  match o with
  | Some s => JStr s
  | None => JNull
  end.


(** ** Uploads, outbound requests, responses *)

(** [fastapi.UploadFile]: [filename] and [content_type] come from the headers
    of the multipart part and are [None] when the header is absent. *)
Record UploadFile : Type := mkUploadFile {
  filename : option string;
  content_type : option string;
  content : list Byte.byte
}.

Inductive http_method : Type := GET | POST.

(** The tuple [(filename, content, content_type)] of a [files=] entry. *)
Definition file_tuple : Type := (option string * list Byte.byte * option string)%type.

(** The arguments of one [requests.get] / [requests.post] call. *)
Record Request : Type := mkRequest {
  method : http_method;
  url : string;
  files : list (string * file_tuple);
  data : list (string * string);
  timeout : Z
}.

(** Why [response.json()] raises, with the text of the exception: the body is
    not JSON ([requests.exceptions.JSONDecodeError], whose text names the
    place of the error), it holds an integer literal longer than the
    interpreter converts ([ValueError]), or it is nested deeper than the
    decoder recurses ([RecursionError]). *)
Inductive decode_failure : Type :=
| NotJSON (msg : string)
| IntegerTooLong (msg : string)
| NestingTooDeep (msg : string).

(** [requests.Response]: the status code, the raw body [text], and what
    [response.json()] does on the body: the decoded value or the failure. *)
Record Response : Type := mkResponse {
  status_code : Z;
  text : string;
  decoded : json + decode_failure
}.

(** The value [response.json()] returns, [None] when it raises. *)
Definition json_body (resp : Response) : option json :=
  match decoded resp with
  | inl value => Some value
  | inr _ => None
  end.

(** ** Exceptions *)

(** The classes of [requests.exceptions]. *)
Inductive requests_exception : Type :=
| RequestException
| InvalidJSONError
| JSONDecodeError
| HTTPError
| ConnectionError
| ProxyError
| SSLError
| Timeout
| ConnectTimeout
| ReadTimeout
| URLRequired
| TooManyRedirects
| MissingSchema
| InvalidSchema
| InvalidURL
| InvalidHeader
| InvalidProxyURL
| ChunkedEncodingError
| ContentDecodingError
| StreamConsumedError
| RetryError
| UnrewindableBodyError.

Scheme Equality for requests_exception.

(** The base classes of each class inside [requests.exceptions]
    ([ConnectTimeout] has two: [class ConnectTimeout(ConnectionError, Timeout)]). *)
Definition bases (c : requests_exception) : list requests_exception :=
  match c with
  | RequestException => []
  | InvalidJSONError => [RequestException]
  | JSONDecodeError => [InvalidJSONError]
  | HTTPError => [RequestException]
  | ConnectionError => [RequestException]
  | ProxyError => [ConnectionError]
  | SSLError => [ConnectionError]
  | Timeout => [RequestException]
  | ConnectTimeout => [ConnectionError; Timeout]
  | ReadTimeout => [Timeout]
  | URLRequired => [RequestException]
  | TooManyRedirects => [RequestException]
  | MissingSchema => [RequestException]
  | InvalidSchema => [RequestException]
  | InvalidURL => [RequestException]
  | InvalidHeader => [RequestException]
  | InvalidProxyURL => [InvalidURL]
  | ChunkedEncodingError => [RequestException]
  | ContentDecodingError => [RequestException]
  | StreamConsumedError => [RequestException]
  | RetryError => [RequestException]
  | UnrewindableBodyError => [RequestException]
  end.

Fixpoint subclass_upto (depth : nat) (c d : requests_exception) : bool :=
  requests_exception_beq c d ||
  match depth with
  | O => false
  | S depth' => existsb (fun b => subclass_upto depth' b d) (bases c)
  end.

(** [issubclass(c, d)]; no chain of bases is longer than three. *)
Definition issubclass (c d : requests_exception) : bool := subclass_upto 3 c d.

(** The exceptions that occur while a handler runs. *)
Inductive exn : Type :=
| RequestsError (c : requests_exception) (msg : string)
| AttributeError (msg : string)
| UnboundLocalError (msg : string)
| ValueError (msg : string)
| RecursionError (msg : string)
| UnicodeEncodeError (msg : string)
| HTTPException (status : Z) (detail : string).

(** The exception [response.json()] raises for a failure. *)
Definition decode_exn (f : decode_failure) : exn :=
  match f with
  | NotJSON msg => RequestsError JSONDecodeError msg
  | IntegerTooLong msg => ValueError msg
  | NestingTooDeep msg => RecursionError msg
  end.

(** The classes named in the [except] clauses of the program. *)
Inductive pyclass : Type :=
| Requests (c : requests_exception)
| Exception.

Definition isinstance (e : exn) (cls : pyclass) : bool :=
  match cls, e with
  | Exception, _ => true
  | Requests d, RequestsError c _ => issubclass c d
  | Requests _, _ => false
  end.

(** [str(e)]: the message for the built-in and [requests] exceptions;
    starlette's [HTTPException.__str__] gives [f"{status_code}: {detail}"]. *)
Definition str (e : exn) : string :=
  match e with
  | RequestsError _ msg => msg
  | AttributeError msg => msg
  | UnboundLocalError msg => msg
  | ValueError msg => msg
  | RecursionError msg => msg
  | UnicodeEncodeError msg => msg
  | HTTPException status detail => str_of_int status ++ ": " ++ detail
  end.

(** ** The handler monad *)

Inductive event : Type :=
| Print (template : string) (args : list json)
| FileRead (f : UploadFile)
| HttpCall (r : Request).

(** What [requests] does with one outbound call: it returns a response or
    raises one of its exceptions. *)
Inductive transport_result : Type :=
| Responds (r : Response)
| Fails (c : requests_exception) (msg : string).

Definition upstream : Type := Request -> transport_result.

Record frame : Type := mkFrame {
  trace : list event;
  response_var : option Response
}.

Inductive res (A : Type) : Type :=
| Val (a : A)
| Exc (e : exn).

Arguments Val {A} a.
Arguments Exc {A} e.

Definition M (A : Type) : Type := upstream -> frame -> res A * frame.

Definition ret {A} (a : A) : M A := fun _ s => (Val a, s).

Definition bind {A B} (m : M A) (k : A -> M B) : M B :=
  fun u s =>
    match m u s with
    | (Val a, s') => k a u s'
    | (Exc e, s') => (Exc e, s')
    end.

Definition raise {A} (e : exn) : M A := fun _ s => (Exc e, s).

Declare Scope handler_scope.
Delimit Scope handler_scope with handler.
Notation "x <- m ;; k" := (bind m (fun x => k))
  (at level 100, m at next level, right associativity) : handler_scope.
Notation "m ;; k" := (bind m (fun _ => k))
  (at level 100, right associativity) : handler_scope.
Local Open Scope handler_scope.

Definition emit (ev : event) : M unit :=
  fun _ s => (Val tt, {| trace := (trace s ++ [ev])%list; response_var := response_var s |}).

(** [print(f"...")]: the template and the values interpolated into it.  The
    lines printed before the outbound call show a file name, the prompt and
    the configured URL; starlette decodes the first two from the request
    (UTF-8, else latin-1), so they hold no surrogate and the line can always
    be written. *)
Definition print (template : string) (args : list json) : M unit :=
  emit (Print template args).

(** [print(f"...{v}")] of a value taken from the decoded upstream body, on a
    standard output that encodes as UTF-8.  [str(v)] of a str is the str
    itself, so a surrogate in it cannot be written and [print] raises
    [UnicodeEncodeError]; for any other value [str(v)] is its [repr], which
    escapes surrogates.  The template ends with the two characters of the
    placeholder. *)
Definition print_decoded (template : string) (v : json) : M unit :=
  match v with
  | JStr s =>
      if has_surrogate s
      then raise (UnicodeEncodeError
                    (encode_error_text (String.length template - 2) s))
      else print template [v]
  | _ => print template [v]
  end.

(** [await file.read()]. *)
Definition read (f : UploadFile) : M (list Byte.byte) :=
  emit (FileRead f) ;; ret (content f).

(** [requests.get(...)] / [requests.post(...)]: one outbound call. *)
Definition requests_call (r : Request) : M Response :=
  emit (HttpCall r) ;;
  fun u s =>
    match u r with
    | Responds resp => (Val resp, s)
    | Fails c msg => (Exc (RequestsError c msg), s)
    end.

(** [response = ...]: the assignment to the handler's local variable. *)
Definition set_response (resp : Response) : M unit :=
  fun _ s => (Val tt, {| trace := trace s; response_var := Some resp |}).

(** A use of the local variable [response]. *)
Definition get_response : M Response :=
  fun _ s =>
    match response_var s with
    | Some resp => (Val resp, s)
    | None =>
        (Exc (UnboundLocalError
                "cannot access local variable 'response' where it is not associated with a value"),
         s)
    end.

(** [response.raise_for_status()]: raises [HTTPError] for 4xx and 5xx only. *)
Definition raise_for_status (resp : Response) : M unit :=
  let s := status_code resp in
  if (400 <=? s) && (s <? 500) then
    raise (RequestsError HTTPError (str_of_int s ++ " Client Error"))
  else if (500 <=? s) && (s <? 600) then
    raise (RequestsError HTTPError (str_of_int s ++ " Server Error"))
  else ret tt.

(** [response.json()]: the decoded body, or the exception of the failure. *)
Definition json_of (resp : Response) : M json :=
  match decoded resp with
  | inl value => ret value
  | inr failure => raise (decode_exn failure)
  end.

(** [result.get(key, default)]: only a [dict] has the method. *)
Definition py_get (result : json) (key : string) (default : json) : M json :=
  match result with
  | JDict fields =>
      ret (match lookup key fields with Some v => v | None => default end)
  | _ => raise (AttributeError ("'" ++ type_name result ++ "' object has no attribute 'get'"))
  end.

(** [file.content_type.startswith("image/")]: [None] has no [startswith]. *)
Definition startswith_image (f : UploadFile) : M bool :=
  match content_type f with
  | Some ct => ret (String.prefix "image/" ct)
  | None => raise (AttributeError "'NoneType' object has no attribute 'startswith'")
  end.

(** [try: body  except C1: h1  except C2 as e: h2 ...]: the first clause whose
    class the exception is an instance of handles it; an exception raised by
    the clause itself leaves the statement. *)
Fixpoint dispatch {A} (clauses : list (pyclass * (exn -> M A))) (e : exn) : M A :=
  match clauses with
  | [] => raise e
  | (cls, h) :: rest => if isinstance e cls then h e else dispatch rest e
  end.

Definition try_except {A} (body : M A) (clauses : list (pyclass * (exn -> M A))) : M A :=
  fun u s =>
    match body u s with
    | (Val a, s') => (Val a, s')
    | (Exc e, s') => dispatch clauses e u s'
    end.

(** Running a handler from a fresh frame: its outcome and its effects. *)
Definition run {A} (m : M A) (u : upstream) : res A * list event :=
  let (r, s) := m u {| trace := []; response_var := None |} in (r, trace s).

(** What FastAPI sends for a handler's outcome.  A returned value is rendered
    by [JSONResponse] and sent with status 200; when it cannot be rendered
    the exception of [json.dumps] or of [encode] leaves the application and
    the server answers a bare 500, as it does for any exception of the
    handler other than an [HTTPException].  The recursion limit of the
    interpreter, which a value nested many hundreds of levels deep exhausts
    in [jsonable_encoder] or in [repr], is not part of the model: the
    statements about returned values bound their [nesting].  An [HTTPException] is answered
    with its status and [{"detail": ...}]; the detail is text made by the
    program (literals, [response.text], which [requests] decodes with
    [errors="replace"], and the text of exceptions) and holds no
    surrogate. *)
Definition reply (r : res json) : Z * json :=
  match r with
  | Val body =>
      if renderable body then (200, body) else (500, JStr "Internal Server Error")
  | Exc (HTTPException status detail) => (status, JDict [("detail", JStr detail)])
  | Exc _ => (500, JStr "Internal Server Error")
  end.

(** The outbound calls and the uploads read, in a list of effects. *)
Definition outbound (tr : list event) : list Request :=
  flat_map (fun ev => match ev with HttpCall r => [r] | _ => [] end) tr.

Definition reads (tr : list event) : list UploadFile :=
  flat_map (fun ev => match ev with FileRead f => [f] | _ => [] end) tr.

(** ** The application *)

Definition COLAB_SERVER_URL : string :=
  "https://kenna-explosible-nonmonistically.ngrok-free.dev".

(** [GET /] (lines 21-34). *)
Definition root : M json :=
  ret (JDict
         [("message", JStr "LLaVA Local Client");
          ("status", JStr "running");
          ("colab_server", JStr COLAB_SERVER_URL);
          ("endpoints",
           JDict [("analyze", JStr "/v1/analyze");
                  ("embed", JStr "/v1/embed");
                  ("cosine_sim", JStr "/v1/cosine-sim");
                  ("health", JStr "/health")])]).

Definition health_request : Request :=
  {| method := GET; url := COLAB_SERVER_URL ++ "/health";
     files := []; data := []; timeout := 5 |}.

(** [GET /health] (lines 36-55). *)
Definition health_check : M json :=
  try_except
    (response <- requests_call health_request ;;
     colab_health <- json_of response ;;
     ret (JDict
            [("local_status", JStr "healthy");
             ("colab_status", JStr "connected");
             ("colab_details", colab_health)]))
    [(Requests RequestException,
      fun e =>
        ret (JDict
               [("local_status", JStr "healthy");
                ("colab_status", JStr "disconnected");
                ("error", JStr (str e));
                ("message",
                 JStr "Make sure to update COLAB_SERVER_URL with your ngrok URL")]))].

(** The four [except] clauses that close the [try] of [analyze_image]
    (lines 109-129), of [embed_image] (lines 176-196) and of
    [calculate_cosine_similarity] (lines 249-269); the three copies are the
    same text. *)
Definition except_clauses : list (pyclass * (exn -> M json)) :=
  [(Requests ConnectionError,
    fun _ =>
      raise (HTTPException 503
               ("Cannot connect to Colab server at " ++ COLAB_SERVER_URL ++ ". " ++
                "Make sure the server is running and COLAB_SERVER_URL is correct.")));
   (Requests Timeout,
    fun _ =>
      raise (HTTPException 504
               "Request to Colab server timed out. The model might be loading."));
   (Requests HTTPError,
    fun _ =>
      response <- get_response ;;
      raise (HTTPException (status_code response)
               ("Colab server error: " ++ text response)));
   (Exception,
    fun e =>
      raise (HTTPException 500 ("Error processing request: " ++ str e)))].

(** The outbound call of [analyze_image] (lines 85-98). *)
Definition analyze_request (file : UploadFile) (prompt : string) : Request :=
  {| method := POST; url := COLAB_SERVER_URL ++ "/v1/analyze";
     files := [("file", (filename file, content file, content_type file))];
     data := [("prompt", prompt)];
     timeout := 60 |}.

(** [POST /v1/analyze] (lines 57-129). *)
Definition analyze_image (file : UploadFile) (prompt : string) : M json :=
  try_except
    (is_image <- startswith_image file ;;
     (if negb is_image
      then raise (HTTPException 400 "File must be an image")
      else ret tt) ;;
     print "Received image: {}" [json_of_opt (filename file)] ;;
     print "Prompt: {}" [JStr prompt] ;;
     print "Forwarding to Colab server: {}" [JStr COLAB_SERVER_URL] ;;
     file_content <- read file ;;
     response <- requests_call
                   {| method := POST; url := COLAB_SERVER_URL ++ "/v1/analyze";
                      files := [("file", (filename file, file_content, content_type file))];
                      data := [("prompt", prompt)];
                      timeout := 60 |} ;;
     set_response response ;;
     raise_for_status response ;;
     result <- json_of response ;;
     shown <- py_get result "response" (JStr "N/A") ;;
     print_decoded "Response from Colab: {}" shown ;;
     ret result)
    except_clauses.

(** The outbound call of [embed_image] (lines 156-165). *)
Definition embed_request (file : UploadFile) : Request :=
  {| method := POST; url := COLAB_SERVER_URL ++ "/v1/embed";
     files := [("file", (filename file, content file, content_type file))];
     data := [];
     timeout := 60 |}.

(** [POST /v1/embed] (lines 131-196). *)
Definition embed_image (file : UploadFile) : M json :=
  try_except
    (is_image <- startswith_image file ;;
     (if negb is_image
      then raise (HTTPException 400 "File must be an image")
      else ret tt) ;;
     print "Received image for embedding: {}" [json_of_opt (filename file)] ;;
     print "Forwarding to Colab server: {}" [JStr COLAB_SERVER_URL] ;;
     file_content <- read file ;;
     response <- requests_call
                   {| method := POST; url := COLAB_SERVER_URL ++ "/v1/embed";
                      files := [("file", (filename file, file_content, content_type file))];
                      data := [];
                      timeout := 60 |} ;;
     set_response response ;;
     raise_for_status response ;;
     result <- json_of response ;;
     shown <- py_get result "embedding_shape" (JStr "N/A") ;;
     print_decoded "Embedding generated successfully, shape: {}" shown ;;
     ret result)
    except_clauses.

(** The outbound call of [calculate_cosine_similarity] (lines 228-238). *)
Definition cosine_request (file1 file2 : UploadFile) : Request :=
  {| method := POST; url := COLAB_SERVER_URL ++ "/v1/cosine-sim";
     files := [("file1", (filename file1, content file1, content_type file1));
               ("file2", (filename file2, content file2, content_type file2))];
     data := [];
     timeout := 60 |}.

(** [POST /v1/cosine-sim] (lines 198-269). *)
Definition calculate_cosine_similarity (file1 file2 : UploadFile) : M json :=
  try_except
    (is_image1 <- startswith_image file1 ;;
     (if negb is_image1
      then raise (HTTPException 400 "File1 must be an image")
      else ret tt) ;;
     is_image2 <- startswith_image file2 ;;
     (if negb is_image2
      then raise (HTTPException 400 "File2 must be an image")
      else ret tt) ;;
     print "Received images for similarity: {} and {}"
       [json_of_opt (filename file1); json_of_opt (filename file2)] ;;
     print "Forwarding to Colab server: {}" [JStr COLAB_SERVER_URL] ;;
     file1_content <- read file1 ;;
     file2_content <- read file2 ;;
     response <- requests_call
                   {| method := POST; url := COLAB_SERVER_URL ++ "/v1/cosine-sim";
                      files := [("file1", (filename file1, file1_content, content_type file1));
                                ("file2", (filename file2, file2_content, content_type file2))];
                      data := [];
                      timeout := 60 |} ;;
     set_response response ;;
     raise_for_status response ;;
     result <- json_of response ;;
     shown <- py_get result "cosine_similarity" (JStr "N/A") ;;
     print_decoded "Cosine similarity: {}" shown ;;
     ret result)
    except_clauses.

(** ** Views of the effects of a handler *)


(** The [files=] tuple that carries an upload unchanged. *)
Definition upload_tuple (f : UploadFile) : file_tuple :=
  (filename f, content f, content_type f).

(** ** The routes *)

(** [Form(default=...)] of the [prompt] parameter (line 60). *)
Definition default_prompt : string := "Describe this image in one concise sentence.".

(** The value FastAPI binds to [prompt]: the default when the form field is
    absent and also when it is sent empty. *)
Definition bound_prompt (field : option string) : string :=
  match field with
  | Some EmptyString => default_prompt
  | Some p => p
  | None => default_prompt
  end.

(** An inbound call to one of the three forwarding routes, as the client
    sends it: the [prompt] form field of [/v1/analyze] may be absent. *)
Inductive relay_call : Type :=
| Analyze (file : UploadFile) (prompt : option string)
| Embed (file : UploadFile)
| CosineSim (file1 file2 : UploadFile).

(** FastAPI binds the parameters and calls the handler of the route. *)
Definition handle (c : relay_call) : M json :=
  match c with
  | Analyze file prompt => analyze_image file (bound_prompt prompt)
  | Embed file => embed_image file
  | CosineSim file1 file2 => calculate_cosine_similarity file1 file2
  end.

(** The uploads of a call, in the order the handler checks them. *)
Definition uploads (c : relay_call) : list UploadFile :=
  match c with
  | Analyze file _ => [file]
  | Embed file => [file]
  | CosineSim file1 file2 => [file1; file2]
  end.

(** The outbound call the handler of the route builds for an inbound call. *)
Definition forwarded (c : relay_call) : Request :=
  match c with
  | Analyze file prompt => analyze_request file (bound_prompt prompt)
  | Embed file => embed_request file
  | CosineSim file1 file2 => cosine_request file1 file2
  end.

(** The declared content type begins with [image/]. *)
Definition is_image (f : UploadFile) : bool :=
  match content_type f with
  | Some ct => String.prefix "image/" ct
  | None => false
  end.

(** The declared content type is present and does not begin with [image/]. *)
Definition non_image (f : UploadFile) : bool :=
  match content_type f with
  | Some ct => negb (String.prefix "image/" ct)
  | None => false
  end.

(** The status code and the [detail] of a reply. *)
Definition status_of (r : res json) : Z := fst (reply r).


(** The line each handler prints before it returns (lines 105, 172, 245):
    the template, and the value [result.get(key, 'N/A')] shown in it. *)
Definition logged_template (c : relay_call) : string :=
  match c with
  | Analyze _ _ => "Response from Colab: {}"
  | Embed _ => "Embedding generated successfully, shape: {}"
  | CosineSim _ _ => "Cosine similarity: {}"
  end.

Definition logged_value (c : relay_call) (fields : list (string * json)) : json :=
  let key := match c with
             | Analyze _ _ => "response"
             | Embed _ => "embedding_shape"
             | CosineSim _ _ => "cosine_similarity"
             end in
  match lookup key fields with
  | Some v => v
  | None => JStr "N/A"
  end.

(** ** Sample inputs *)

Definition png_bytes : list Byte.byte := [Byte.x89; Byte.x50; Byte.x4e; Byte.x47].

Definition cat_png : UploadFile :=
  {| filename := Some "cat.png"; content_type := Some "image/png"; content := png_bytes |}.

Definition notes_txt : UploadFile :=
  {| filename := Some "notes.txt"; content_type := Some "text/plain";
     content := [Byte.x68; Byte.x69] |}.

Definition untyped_upload : UploadFile :=
  {| filename := Some "blob"; content_type := None; content := png_bytes |}.

(** A string between double quotes, for the text of a JSON body. *)
Definition quoted (s : string) : string :=
  let dquote := Ascii false true false false false true false false in
  String dquote (s ++ String dquote EmptyString).


Definition object_response : Response :=
  {| status_code := 200; text := "{" ++ quoted "cosine_similarity" ++ ": 1}";
     decoded := inl (JDict [("cosine_similarity", JInt 1)]) |}.




Definition html_response : Response :=
  {| status_code := 200; text := "<html>Tunnel not found</html>";
     decoded := inr (NotJSON "Expecting value: line 1 column 1 (char 0)") |}.


Definition truncated_response : Response :=
  {| status_code := 200; text := "{" ++ quoted "status" ++ ":";
     decoded := inr (NotJSON "Expecting value: line 1 column 11 (char 10)") |}.


(** A Colab server that answers every call with the given response. *)
Definition answers (resp : Response) : upstream := fun _ => Responds resp.

(** A network on which every call raises the given [requests] exception. *)
Definition failing (c : requests_exception) (msg : string) : upstream :=
  fun _ => Fails c msg.

(** * Properties *)

(** ** Executing a handler symbolically *)

(** Unfolds a handler down to the case distinctions on its inputs and on the
    oracle; string concatenations and [String.prefix] stay folded. *)
Ltac exec :=
  cbv beta iota zeta delta
    [run handle forwarded uploads
     analyze_image embed_image calculate_cosine_similarity health_check root
     analyze_request embed_request cosine_request health_request
     try_except dispatch except_clauses isinstance
     bind ret raise emit print print_decoded read requests_call
     set_response get_response
     startswith_image raise_for_status json_of decode_exn py_get
     logged_template logged_value
     is_image non_image forallb andb negb
     filename content_type content trace response_var
     status_code text json_body decoded
     fst snd app].

Ltac exec_in H :=
  cbv beta iota zeta delta
    [run handle forwarded uploads
     analyze_request embed_request cosine_request health_request
     is_image non_image forallb andb negb
     filename content_type content
     status_code text json_body decoded] in H.

(** Splits on the value the handler prints and on whether it can be
    written, then computes. *)
Ltac split_logged :=
  cbv beta iota;
  repeat match goal with
         | |- context [lookup ?k ?f] =>
             is_var f; destruct (lookup k f) as [[] |]; cbv beta iota
         | |- context [has_surrogate ?s] =>
             is_var s; destruct (has_surrogate s); cbv beta iota
         end;
  reflexivity.

(** Splits on the answer of the oracle to the call in the goal. *)
Ltac split_answer u :=
  let st := fresh "st" in
  let tx := fresh "tx" in
  let j := fresh "j" in
  let failure := fresh "failure" in
  let k := fresh "k" in
  let msg := fresh "msg" in
  match goal with
  | |- context [u ?r] => destruct (u r) as [[st tx [j | failure]] | k msg]
  end;
  [ cbv beta iota;
    destruct (400 <=? st); destruct (st <? 500);
    destruct (500 <=? st); destruct (st <? 600);
    try reflexivity; destruct j; split_logged
  | cbv beta iota;
    destruct (400 <=? st); destruct (st <? 500);
    destruct (500 <=? st); destruct (st <? 600);
    try reflexivity; destruct failure; reflexivity
  | destruct k; reflexivity ].

(** Splits on the declared content types of the uploads of a call. *)
Ltac split_uploads c :=
  destruct c as [[fn [ct|] bytes] prompt | [fn [ct|] bytes]
                | [fn1 [ct1|] bytes1] [fn2 [ct2|] bytes2]].

Section Execution.

Variable u : upstream.


(** A call with an upload that is not a declared image is answered with a
    500 before anything is printed, read or sent. *)
Lemma handle_rejects (c : relay_call) :
  forallb is_image (uploads c) = false ->
  exists cause : string,
    run (handle c) u =
      (Exc (HTTPException 500 ("Error processing request: " ++ cause)), []).
Proof.
  intros Hbad. split_uploads c; exec_in Hbad; exec;
    repeat match goal with
           | H : context [String.prefix ?p ?s] |- _ => destruct (String.prefix p s)
           | |- context [String.prefix ?p ?s] => destruct (String.prefix p s)
           end;
    try discriminate; eexists; reflexivity.
Qed.

(** The handler of a call whose uploads are all declared images reads them
    and issues exactly the call [forwarded c]; otherwise nothing is sent. *)
Lemma handle_outbound (c : relay_call) :
  outbound (snd (run (handle c) u)) =
    if forallb is_image (uploads c) then [forwarded c] else [].
Proof.
  split_uploads c; exec;
    repeat match goal with
           | |- context [String.prefix ?p ?s] => destruct (String.prefix p s)
           end;
    try reflexivity; split_answer u.
Qed.

Lemma handle_reads (c : relay_call) :
  reads (snd (run (handle c) u)) =
    if forallb is_image (uploads c) then uploads c else [].
Proof.
  split_uploads c; exec;
    repeat match goal with
           | |- context [String.prefix ?p ?s] => destruct (String.prefix p s)
           end;
    try reflexivity; split_answer u.
Qed.

(** An outbound call in the effects of a handler is the forwarded call of
    an inbound call whose uploads passed the check. *)
Lemma outbound_inv (c : relay_call) (r : Request) :
  In r (outbound (snd (run (handle c) u))) ->
  forallb is_image (uploads c) = true /\ r = forwarded c.
Proof.
  rewrite handle_outbound.
  destruct (forallb is_image (uploads c)); simpl; intuition congruence.
Qed.

(** When [requests.post] raises, the [except] clauses decide the outcome;
    the local variable [response] is still unbound at that point. *)
Lemma handle_transport_failure (c : relay_call) k msg :
  forallb is_image (uploads c) = true ->
  u (forwarded c) = Fails k msg ->
  fst (run (handle c) u) =
    fst (run (dispatch except_clauses (RequestsError k msg)) u).
Proof.
  intros Hok Hfail. split_uploads c; exec_in Hok; exec_in Hfail; exec;
    repeat match goal with
           | H : context [String.prefix ?p ?s] |- _ => destruct (String.prefix p s)
           end;
    try discriminate;
    rewrite Hfail; destruct k; reflexivity.
Qed.

(** A 4xx or 5xx answer leaves through [raise_for_status] and the
    [except requests.exceptions.HTTPError] clause. *)
Lemma handle_upstream_error (c : relay_call) resp :
  forallb is_image (uploads c) = true ->
  u (forwarded c) = Responds resp ->
  400 <= status_code resp < 600 ->
  fst (run (handle c) u) =
    Exc (HTTPException (status_code resp) ("Colab server error: " ++ text resp)).
Proof.
  intros Hok Hresp Hst. destruct resp as [st tx jb].
  split_uploads c; exec_in Hok; exec_in Hresp; exec_in Hst; exec;
    repeat match goal with
           | H : context [String.prefix ?p ?s] |- _ => destruct (String.prefix p s)
           end;
    try discriminate;
    rewrite Hresp; cbv beta iota;
    destruct (Z.leb_spec 400 st); destruct (Z.ltb_spec st 500);
    destruct (Z.leb_spec 500 st); destruct (Z.ltb_spec st 600);
    try lia; reflexivity.
Qed.

(** Any other answer goes on to [response.json()], to the [get] on the
    decoded value and to the [print] of what it found. *)
Lemma handle_upstream_other (c : relay_call) resp :
  forallb is_image (uploads c) = true ->
  u (forwarded c) = Responds resp ->
  ~ (400 <= status_code resp < 600) ->
  fst (run (handle c) u) =
    match decoded resp with
    | inl (JDict fields) =>
        match logged_value c fields with
        | JStr s =>
            if has_surrogate s
            then Exc (HTTPException 500
                        ("Error processing request: " ++
                         encode_error_text (String.length (logged_template c) - 2) s))
            else Val (JDict fields)
        | _ => Val (JDict fields)
        end
    | inl other =>
        Exc (HTTPException 500
               ("Error processing request: " ++
                ("'" ++ type_name other ++ "' object has no attribute 'get'")))
    | inr failure =>
        Exc (HTTPException 500
               ("Error processing request: " ++ str (decode_exn failure)))
    end.
Proof.
  intros Hok Hresp Hst. destruct resp as [st tx jb].
  split_uploads c; exec_in Hok; exec_in Hresp; exec_in Hst; exec;
    repeat match goal with
           | H : context [String.prefix ?p ?s] |- _ => destruct (String.prefix p s)
           end;
    try discriminate;
    rewrite Hresp; cbv beta iota;
    destruct (Z.leb_spec 400 st); destruct (Z.ltb_spec st 500);
    destruct (Z.leb_spec 500 st); destruct (Z.ltb_spec st 600);
    try lia; destruct jb as [[] | []]; split_logged.
Qed.





End Execution.

(** ** Validation of the declared content type *)

(** C1 (what the code does at the failing inputs).  The handlers raise
    [HTTPException(status_code=400, ...)] inside their own [try] block, and
    [HTTPException] is an [Exception]: the [except Exception] clause catches
    it and raises a 500 whose detail quotes the 400.  A [text/plain] upload
    to [/v1/analyze] or [/v1/embed], and a PNG with a [text/plain] second
    file to [/v1/cosine-sim], are answered with status 500, not 400. *)
Theorem non_image_upload_answered_500 :
  forall u : upstream,
    reply (fst (run (handle (Analyze notes_txt None)) u)) =
      (500, JDict [("detail",
                    JStr "Error processing request: 400: File must be an image")])
    /\ reply (fst (run (handle (Embed notes_txt)) u)) =
      (500, JDict [("detail",
                    JStr "Error processing request: 400: File must be an image")])
    /\ reply (fst (run (handle (CosineSim cat_png notes_txt)) u)) =
      (500, JDict [("detail",
                    JStr "Error processing request: 400: File2 must be an image")]).
Proof. intro u. repeat split; reflexivity. Qed.

(** C9.  When an upload of a call to [/v1/analyze], [/v1/embed] or
    [/v1/cosine-sim] fails the content-type check, the handler issues no
    outbound call and reads no upload: the check comes first. *)
Theorem rejected_upload_never_forwarded (c : relay_call) (u : upstream) :
  forallb is_image (uploads c) = false ->
  outbound (snd (run (handle c) u)) = [] /\
  reads (snd (run (handle c) u)) = [].
Proof.
  intros Hbad. rewrite handle_outbound, handle_reads, Hbad. split; reflexivity.
Qed.

Lemma rejected_upload_never_forwarded_witness :
  forallb is_image (uploads (CosineSim cat_png notes_txt)) = false /\
  outbound (snd (run (handle (CosineSim cat_png notes_txt)) (failing ConnectionError "refused"))) = [] /\
  reads (snd (run (handle (CosineSim cat_png notes_txt)) (failing ConnectionError "refused"))) = [].
Proof.
  split; [reflexivity | apply rejected_upload_never_forwarded; reflexivity].
Defined.

(** C10.  When an upload carries no declared content type, the call is
    answered with status 500 and not 400: the exception is caught by the
    [except Exception] clause, and it is the [AttributeError] of
    [None.startswith] unless the first file of [/v1/cosine-sim] was already
    rejected as a declared non-image. *)
Theorem missing_content_type_answered_500
    (c : relay_call) (u : upstream) (f : UploadFile) :
  In f (uploads c) ->
  content_type f = None ->
  status_of (fst (run (handle c) u)) = 500 /\
  status_of (fst (run (handle c) u)) <> 400 /\
  exists cause : string,
    fst (run (handle c) u) =
      Exc (HTTPException 500 ("Error processing request: " ++ cause)) /\
    (cause = "'NoneType' object has no attribute 'startswith'" \/
     cause = "400: File1 must be an image" /\
     exists file1 file2, c = CosineSim file1 file2 /\ non_image file1 = true).
Proof.
  intros Hin Hnone.
  assert (Hshape : exists cause : string,
             fst (run (handle c) u) =
               Exc (HTTPException 500 ("Error processing request: " ++ cause)) /\
             (cause = "'NoneType' object has no attribute 'startswith'" \/
              cause = "400: File1 must be an image" /\
              exists file1 file2, c = CosineSim file1 file2 /\ non_image file1 = true)).
  { destruct c as [file prompt | file | file1 file2]; simpl in Hin.
    - destruct Hin as [-> | []]. destruct f as [fn ct bytes]; simpl in Hnone; subst ct.
      eexists; split; [reflexivity | left; reflexivity].
    - destruct Hin as [-> | []]. destruct f as [fn ct bytes]; simpl in Hnone; subst ct.
      eexists; split; [reflexivity | left; reflexivity].
    - destruct file1 as [fn1 [ct1|] bytes1], file2 as [fn2 ct2 bytes2].
      + destruct (String.prefix "image/" ct1) eqn:Hp1.
        * destruct Hin as [<- | [<- | []]]; simpl in Hnone; [discriminate | subst ct2].
          exec. rewrite Hp1. eexists; split; [reflexivity | left; reflexivity].
        * exec. rewrite Hp1. eexists; split; [reflexivity | right; split; [reflexivity|]].
          do 2 eexists; split; [reflexivity|]. exec. rewrite Hp1. reflexivity.
      + eexists; split; [reflexivity | left; reflexivity]. }
  destruct Hshape as (cause & Hrun & Hcause).
  rewrite Hrun. repeat split; [discriminate | exists cause; split; [reflexivity | exact Hcause]].
Qed.

Lemma missing_content_type_answered_500_witness :
  In untyped_upload (uploads (Embed untyped_upload)) /\
  content_type untyped_upload = None /\
  status_of (fst (run (handle (Embed untyped_upload)) (answers object_response))) = 500.
Proof.
  split; [left; reflexivity | split; [reflexivity |]].
  apply (proj1 (missing_content_type_answered_500
                  (Embed untyped_upload) (answers object_response)
                  untyped_upload (or_introl eq_refl) eq_refl)).
Defined.

(** ** Relaying the answer of the Colab server *)







(** ** Transport failures *)






(** ** The prompt of [/v1/analyze] *)


(** ** The routes without uploads *)

(** C8.  [GET /] returns the static metadata (the message, the status
    [running], the configured Colab URL and the four endpoint paths) with
    status 200, whatever the Colab server does, and has no effect: no
    outbound call, nothing read, nothing printed. *)
Theorem root_returns_static_metadata :
  forall u : upstream,
    run root u =
      (Val (JDict
              [("message", JStr "LLaVA Local Client");
               ("status", JStr "running");
               ("colab_server", JStr COLAB_SERVER_URL);
               ("endpoints",
                JDict [("analyze", JStr "/v1/analyze");
                       ("embed", JStr "/v1/embed");
                       ("cosine_sim", JStr "/v1/cosine-sim");
                       ("health", JStr "/health")])]),
       []) /\
    status_of (fst (run root u)) = 200 /\
    outbound (snd (run root u)) = [].
Proof. intro u. repeat split. Qed.



(** * Further properties of the handlers *)



(** ** What reaches the Colab server *)



(** X3.  Every outbound call of a forwarding handler is a POST to the route
    of the same name on the Colab server, with a timeout of 60, and its file
    parts carry the file name, the bytes and the content type of each upload
    unchanged and in order; only [/v1/analyze] adds a form field, the prompt:
    the one the client sent, or the default when the field is absent or
    empty. *)
Theorem forwarded_call_carries_uploads
    (c : relay_call) (u : upstream) (r : Request) :
  In r (outbound (snd (run (handle c) u))) ->
  method r = POST /\
  timeout r = 60 /\
  url r = (COLAB_SERVER_URL ++
           match c with
           | Analyze _ _ => "/v1/analyze"
           | Embed _ => "/v1/embed"
           | CosineSim _ _ => "/v1/cosine-sim"
           end) /\
  map snd (files r) = map upload_tuple (uploads c) /\
  map fst (files r) =
    (match c with
     | CosineSim _ _ => ["file1"; "file2"]
     | _ => ["file"]
     end) /\
  data r =
    (match c with
     | Analyze _ None => [("prompt", default_prompt)]
     | Analyze _ (Some EmptyString) => [("prompt", default_prompt)]
     | Analyze _ (Some prompt) => [("prompt", prompt)]
     | _ => []
     end).
Proof.
  intros Hsent. destruct (outbound_inv u c r Hsent) as [_ ->].
  destruct c as [file [[| a prompt] |] | file | file1 file2]; repeat split.
Qed.

Lemma forwarded_call_carries_uploads_witness :
  In (forwarded (Analyze cat_png (Some EmptyString)))
     (outbound (snd (run (handle (Analyze cat_png (Some EmptyString)))
                       (answers object_response)))) /\
  map snd (files (forwarded (Analyze cat_png (Some EmptyString)))) =
    [(Some "cat.png", png_bytes, Some "image/png")] /\
  data (forwarded (Analyze cat_png (Some EmptyString))) =
    [("prompt", "Describe this image in one concise sentence.")].
Proof.
  split; [left; reflexivity |].
  split;
    [ apply (proj1 (proj2 (proj2 (proj2 (forwarded_call_carries_uploads
               (Analyze cat_png (Some EmptyString)) (answers object_response)
               (forwarded (Analyze cat_png (Some EmptyString))) (or_introl eq_refl))))))
    | apply (proj2 (proj2 (proj2 (proj2 (proj2 (forwarded_call_carries_uploads
               (Analyze cat_png (Some EmptyString)) (answers object_response)
               (forwarded (Analyze cat_png (Some EmptyString))) (or_introl eq_refl))))))) ].
Defined.

(** X4.  [/v1/cosine-sim] checks [file1] before [file2]: a declared non-image
    [file1] is the one reported, whatever [file2] is, and [file2] is reported
    only when [file1] is a declared image.  The report is the detail of the
    500 that the catch-all clause makes of the 400. *)
Theorem cosine_checks_file1_first
    (file1 file2 : UploadFile) (u : upstream) :
  non_image file1 = true \/ (is_image file1 = true /\ non_image file2 = true) ->
  fst (run (handle (CosineSim file1 file2)) u) =
    Exc (HTTPException 500
           ("Error processing request: 400: " ++
            (if non_image file1 then "File1" else "File2") ++ " must be an image")).
Proof.
  destruct file1 as [fn1 [ct1 |] bytes1], file2 as [fn2 [ct2 |] bytes2];
    unfold non_image, is_image; simpl;
    intros [H | [H1 H2]]; try discriminate; exec;
    repeat match goal with
           | H : negb ?b = true |- _ => apply negb_true_iff in H
           end;
    repeat match goal with
           | H : String.prefix _ _ = _ |- _ => rewrite H
           end;
    reflexivity.
Qed.

Lemma cosine_checks_file1_first_witness :
  (non_image notes_txt = true \/ (is_image notes_txt = true /\ non_image untyped_upload = true)) /\
  fst (run (handle (CosineSim notes_txt untyped_upload)) (answers object_response)) =
    Exc (HTTPException 500 "Error processing request: 400: File1 must be an image").
Proof.
  split; [left; reflexivity |].
  apply (cosine_checks_file1_first notes_txt untyped_upload (answers object_response)
           (or_introl eq_refl)).
Defined.

(** ** What the caller gets back *)







(** X8.  Every run of a forwarding handler ends in one of three ways: it
    returns a JSON object; or it raises an [HTTPException] whose status is
    500, 503, 504 or the 4xx/5xx status of the Colab server's answer; or,
    only when the outbound call itself raises [HTTPError] before [response]
    is assigned, the use of [response] in the [except HTTPError] clause
    raises [UnboundLocalError], which leaves the handler and is answered
    with a bare 500. *)
Theorem relay_outcome_structured :
  forall (c : relay_call) (u : upstream),
    (exists fields, fst (run (handle c) u) = Val (JDict fields)) \/
    (exists status detail,
        fst (run (handle c) u) = Exc (HTTPException status detail) /\
        (status = 500 \/ status = 503 \/ status = 504 \/
         exists resp, u (forwarded c) = Responds resp /\
                      status = status_code resp /\ 400 <= status < 600)) \/
    (exists msg cause,
        forallb is_image (uploads c) = true /\
        u (forwarded c) = Fails HTTPError msg /\
        fst (run (handle c) u) = Exc (UnboundLocalError cause) /\
        reply (fst (run (handle c) u)) = (500, JStr "Internal Server Error")).
Proof.
  intros c u.
  assert (Hother : forall resp,
             forallb is_image (uploads c) = true ->
             u (forwarded c) = Responds resp ->
             ~ (400 <= status_code resp < 600) ->
             (exists fields, fst (run (handle c) u) = Val (JDict fields)) \/
             (exists detail, fst (run (handle c) u) = Exc (HTTPException 500 detail))).
  { intros resp Hok Hup Hst.
    rewrite (handle_upstream_other u c resp Hok Hup Hst).
    destruct (decoded resp) as [[] | failure];
      try (right; eexists; reflexivity).
    destruct (logged_value c fields) as [| | | | s | |];
      try (left; eexists; reflexivity).
    destruct (has_surrogate s); [right | left]; eexists; reflexivity. }
  destruct (forallb is_image (uploads c)) eqn:Hok.
  - destruct (u (forwarded c)) as [resp | k msg] eqn:Hup.
    + destruct (Z_le_dec 400 (status_code resp)) as [Hlo | Hlo];
        [destruct (Z_lt_dec (status_code resp) 600) as [Hhi | Hhi] |].
      * right; left. do 2 eexists. split.
        -- apply (handle_upstream_error u c resp Hok Hup); lia.
        -- right; right; right. exists resp. repeat split; lia.
      * destruct (Hother resp eq_refl eq_refl) as [Hval | [detail Hexc]]; [lia | left; exact Hval |].
        right; left. exists 500, detail. split; [exact Hexc | left; reflexivity].
      * destruct (Hother resp eq_refl eq_refl) as [Hval | [detail Hexc]]; [lia | left; exact Hval |].
        right; left. exists 500, detail. split; [exact Hexc | left; reflexivity].
    + rewrite (handle_transport_failure u c k msg Hok Hup).
      destruct k;
        solve [ right; left; do 2 eexists; split;
                [reflexivity | solve [ left; reflexivity
                                     | right; left; reflexivity
                                     | right; right; left; reflexivity ] ]
              | right; right; exists msg; eexists;
                split; [reflexivity | split; [reflexivity | split; reflexivity]] ].
  - destruct (handle_rejects u c Hok) as [cause Hrun]. rewrite Hrun.
    right; left. do 2 eexists. split; [reflexivity | left; reflexivity].
Qed.

(** ** The health probe *)

(** X9.  [health_check] never looks at the status code of the Colab server's
    answer (there is no [raise_for_status]): two answers on which
    [response.json()] does the same (the same decoded value, or the same
    failure with the same text) give the same result, so a 500 with a JSON
    body is reported as [connected]. *)
Theorem health_ignores_status_code
    (u1 u2 : upstream) (resp1 resp2 : Response) :
  u1 health_request = Responds resp1 ->
  u2 health_request = Responds resp2 ->
  decoded resp1 = decoded resp2 ->
  run health_check u1 = run health_check u2.
Proof.
  intros H1 H2 Hbody. destruct resp1 as [st1 tx1 jb1], resp2 as [st2 tx2 jb2].
  simpl in Hbody. subst jb2. exec_in H1. exec_in H2. exec.
  rewrite H1, H2. destruct jb1 as [j | []]; reflexivity.
Qed.

Lemma health_ignores_status_code_witness :
  answers object_response health_request = Responds object_response /\
  answers (mkResponse 500 "Internal Server Error" (decoded object_response)) health_request =
    Responds (mkResponse 500 "Internal Server Error" (decoded object_response)) /\
  decoded object_response =
    decoded (mkResponse 500 "Internal Server Error" (decoded object_response)) /\
  run health_check (answers object_response) =
    run health_check
      (answers (mkResponse 500 "Internal Server Error" (decoded object_response))).
Proof.
  split; [reflexivity | split; [reflexivity | split; [reflexivity |]]].
  apply (health_ignores_status_code
           (answers object_response)
           (answers (mkResponse 500 "Internal Server Error" (decoded object_response)))
           object_response
           (mkResponse 500 "Internal Server Error" (decoded object_response))
           eq_refl eq_refl eq_refl).
Defined.
